(** * The [User] component of src/Components/User/index.tsx

    A shallow embedding of the one executable unit of the repository: a React
    function component that keeps two state cells ([user], [isLoading]),
    starts one asynchronous fetch of [/api/user] from a mount-only effect and
    renders a loading notice, an empty notice or the user's fields.

    The payload is typed [any] at the point where it enters the component
    ([response.json()]), so it is modelled as an arbitrary JavaScript value,
    not as an inhabitant of the declared [User] interface.

    The small functions that README.md uses to illustrate null-safety
    ([processData] in three forms, [runQueryWithDefaults] in two, [main])
    are embedded after the component, over the same values. *)

From Stdlib Require Import Floats.SpecFloat.
From stdpp Require Import base option list strings gmap.

Open Scope string_scope.

#[local] Set Warnings "-register-all".

(** ** JavaScript values *)

Module Js.

(** A number is an IEEE 754 double, kept in the specification form of the
    standard library: signed zeros, infinities, NaN and finite values. *)
Definition Number := spec_float.

(** The values a deserialised body can be, plus [undefined]. Objects are
    finite maps from property names to values. *)
Inductive Value : Type :=
| Undefined
| Null
| Bool (b : bool)
| Num (n : Number)
| Str (s : string)
| Arr (items : list Value)
| Obj (props : gmap string Value).

(** A completion: the value of an expression, or the value it throws. *)
Inductive Result (A : Type) : Type :=
| Ok (a : A)
| Throw (error : Value).
Arguments Ok {A} a.
Arguments Throw {A} error.

(** Sequencing: a thrown value skips the rest of the expression. *)
#[global] Instance Result_bind : MBind Result := fun A B k r =>
  match r with
  | Ok a => k a
  | Throw e => Throw e
  end.

(** The error object of a failed property read, reduced to its name. *)
Definition TypeError : Value := Obj {[ "name" := Str "TypeError" ]}.

(** [ToBoolean]: the falsy values are [undefined], [null], [false], both
    zeros, NaN and the empty string. *)
Definition ToBoolean (v : Value) : bool :=
  match v with
  | Undefined | Null => false
  | Bool b => b
  | Num (S754_zero _) | Num S754_nan => false
  | Num _ => true
  | Str s => negb (String.eqb s "")
  | Arr _ | Obj _ => true
  end.

Definition nullish (v : Value) : bool :=
  match v with
  | Undefined | Null => true
  | _ => false
  end.

(** [v.key] for the property names the component reads ([id], [firstName],
    [lastName], [address], [street]). Reading a property of [undefined] or
    [null] throws a TypeError. An object answers with its own property or
    [undefined]. None of those names is an own property of a string or an
    array, nor defined on a built-in prototype, so every other value
    answers [undefined]. *)
Definition Get (v : Value) (key : string) : Result Value :=
  match v with
  | Undefined | Null => Throw TypeError
  | Obj props => Ok (default Undefined (props !! key))
  | Bool _ | Num _ | Str _ | Arr _ => Ok Undefined
  end.

(** [Object.is], used by React to compare dependency arrays. Values of this
    model carry no identity: an array or object written in a render is a
    fresh reference, never identical to the one of the render before. *)
Definition Object_is (a b : Value) : bool :=
  match a, b with
  | Undefined, Undefined | Null, Null => true
  | Bool x, Bool y => Bool.eqb x y
  | Num x, Num y =>
      match x, y with
      | S754_nan, S754_nan => true
      | S754_zero s, S754_zero t | S754_infinity s, S754_infinity t => Bool.eqb s t
      | S754_finite s m e, S754_finite t n f =>
          Bool.eqb s t && Pos.eqb m n && Z.eqb e f
      | _, _ => false
      end
  | Str x, Str y => String.eqb x y
  | _, _ => false
  end.

End Js.

Import Js.

(** ** React elements

    What a JSX expression evaluates to: an element with a tag and children,
    where a child is an element or the value of a [{...}] expression (JSX
    text is a string child). *)

Inductive ReactNode : Type :=
| Element (tag : string) (children : list ReactNode)
| Child (v : Js.Value).

Definition text (s : string) : ReactNode := Child (Str s).

(** ** The component function *)

(** The street line of the Loaded output: [<p>Address: {street}</p>]. *)
Definition streetLine (street : Js.Value) : ReactNode :=
  Element "p" [text "Address: "; Child street].

(** The body of [User] below the hooks, as a function of the two state
    cells. Children are evaluated left to right, as written. *)
Definition render (user : Js.Value) (isLoading : bool) : Result ReactNode :=
  if isLoading then Ok (Element "div" [text "Loading..."])
  else if negb (ToBoolean user) then Ok (Element "div" [text "No user found"])
  else
    id ← Get user "id";
    firstName ← Get user "firstName";
    lastName ← Get user "lastName";
    address ← Get user "address";
    street ← Get address "street";
    line ← (if ToBoolean street
             then address' ← Get user "address";
                  street' ← Get address' "street";
                  Ok (streetLine street')
             else Ok (Child street));
    Ok (Element "div"
          [ Element "h1" [text "User Info"];
            Element "p" [text "ID: "; Child id];
            Element "p" [text "Name: "; Child firstName];
            Element "p" [text "Name: "; Child lastName];
            line ]).

(** ** What React accepts as a child

    React turns the element a component returns into the document. A
    string or a number becomes text, [undefined], [null] and booleans
    become nothing, an array stands for its items. A plain object is not
    a child: React throws ("Objects are not valid as a React child")
    while it renders, and with no error boundary around the component the
    whole root is unmounted. *)

(** The error of an object child, reduced to its name. *)
Definition ChildError : Js.Value := Obj {[ "name" := Str "Error" ]}.

Fixpoint validChild (v : Js.Value) : bool :=
  match v with
  | Obj _ => false
  | Arr items => forallb validChild items
  | Undefined | Null | Bool _ | Num _ | Str _ => true
  end.

Fixpoint mountable (n : ReactNode) : bool :=
  match n with
  | Child v => validChild v
  | Element _ children => forallb mountable children
  end.

(** React's pass over a returned element: the element, or the fault. *)
Definition reconcile (n : ReactNode) : Result ReactNode :=
  if mountable n then Ok n else Throw ChildError.

(** What a render of the component puts on screen for the two state
    cells: the element the function returns, gone over by React. *)
Definition output (user : Js.Value) (isLoading : bool) : Result ReactNode :=
  n ← render user isLoading; reconcile n.

(** ** Promises and the async function

    A promise settles once: fulfilled with a value or rejected with a
    reason. *)

Inductive Settled (A : Type) : Type :=
| Fulfilled (a : A)
| Rejected (reason : Js.Value).
Arguments Fulfilled {A} a.
Arguments Rejected {A} reason.

(** The [Response] of a fetch, reduced to what the component uses of it:
    what the promise of [response.json()] settles to (rejected when the
    body does not parse). *)
Record Response : Type := { json : Settled Js.Value }.

(** The body of an async function that calls the two state setters and
    awaits the two promises, in continuation form. The language of the
    function has no [try]/[catch]: the source has none. *)
Inductive Async : Type :=
| Return
| SetIsLoading (b : bool) (k : Async)
| SetUser (v : Js.Value) (k : Async)
| AwaitFetch (url : string) (k : Response -> Async)
| AwaitJson (response : Response) (k : Js.Value -> Async).

Definition fetchUser : Async :=
  SetIsLoading true
    (AwaitFetch "/api/user" (fun response =>
       AwaitJson response (fun data =>
         SetUser data
           (SetIsLoading false Return)))).

(** ** The mounted component *)

(** The two [useState] cells. *)
Record Hooks : Type := { user : Js.Value; isLoading : bool }.

(** A call of [fetchUser] suspended at an [await]. *)
Inductive Task : Type :=
| AwaitingFetch (k : Response -> Async)
| AwaitingJson (response : Response) (k : Js.Value -> Async).

Record Instance : Type := {
  hooks : Hooks;
  (** a setter changed a cell since the last render *)
  dirty : bool;
  (** dependency array of the effect as last committed; [None] before the
      first commit *)
  deps : option (list Js.Value);
  (** outcome of the last render; [None] before the first render, a thrown
      value once a render faulted (no error boundary: the host unmounts) *)
  screen : option (Result ReactNode);
  (** suspended calls of [fetchUser], oldest first *)
  tasks : list Task;
  (** urls requested from the network so far *)
  requests : list string;
  (** rejections that reached the host with no handler attached *)
  unhandled : list Js.Value
}.

Definition with_hooks (h : Hooks) (d : bool) (i : Instance) : Instance :=
  {| hooks := h; dirty := d; deps := deps i; screen := screen i;
     tasks := tasks i; requests := requests i; unhandled := unhandled i |}.

Definition with_deps (d : option (list Js.Value)) (i : Instance) : Instance :=
  {| hooks := hooks i; dirty := dirty i; deps := d; screen := screen i;
     tasks := tasks i; requests := requests i; unhandled := unhandled i |}.

Definition with_screen (s : option (Result ReactNode)) (i : Instance) : Instance :=
  {| hooks := hooks i; dirty := dirty i; deps := deps i; screen := s;
     tasks := tasks i; requests := requests i; unhandled := unhandled i |}.

Definition with_tasks (t : list Task) (i : Instance) : Instance :=
  {| hooks := hooks i; dirty := dirty i; deps := deps i; screen := screen i;
     tasks := t; requests := requests i; unhandled := unhandled i |}.

Definition with_request (url : string) (i : Instance) : Instance :=
  {| hooks := hooks i; dirty := dirty i; deps := deps i; screen := screen i;
     tasks := tasks i; requests := requests i ++ [url]; unhandled := unhandled i |}.

Definition with_unhandled (e : Js.Value) (i : Instance) : Instance :=
  {| hooks := hooks i; dirty := dirty i; deps := deps i; screen := screen i;
     tasks := tasks i; requests := requests i; unhandled := unhandled i ++ [e] |}.

(** [useState(null)] and [useState(true)]; nothing rendered or requested. *)
Definition initial : Instance :=
  {| hooks := {| user := Null; isLoading := true |}; dirty := false;
     deps := None; screen := None; tasks := []; requests := []; unhandled := [] |}.

(** A state setter stores the value; a value identical to the stored one
    ([Object.is]) schedules no render. *)
Definition setIsLoading (b : bool) (i : Instance) : Instance :=
  with_hooks {| user := user (hooks i); isLoading := b |}
             (dirty i || negb (Bool.eqb (isLoading (hooks i)) b)) i.

Definition setUser (v : Js.Value) (i : Instance) : Instance :=
  with_hooks {| user := v; isLoading := isLoading (hooks i) |}
             (dirty i || negb (Object_is (user (hooks i)) v)) i.

(** Runs an async body up to its next [await] (where the call suspends and
    control returns to the host) or to its end. [fetch] issues the request
    when it is called. *)
Fixpoint run (a : Async) (i : Instance) : Instance :=
  match a with
  | Return => i
  | SetIsLoading b k => run k (setIsLoading b i)
  | SetUser v k => run k (setUser v i)
  | AwaitFetch url k =>
      with_tasks (tasks i ++ [AwaitingFetch k]) (with_request url i)
  | AwaitJson response k =>
      with_tasks (tasks i ++ [AwaitingJson response k]) i
  end.

(** React's comparison of two dependency arrays. *)
Fixpoint areHookInputsEqual (next prev : list Js.Value) : bool :=
  match next, prev with
  | x :: next', y :: prev' => Object_is x y && areHookInputsEqual next' prev'
  | _, _ => true
  end.

(** [useEffect(() => { ...; fetchUser() }, [])] at commit: the effect runs
    after the first commit and after a commit whose dependency array
    differs from the previous one. The effect calls [fetchUser()] and drops
    the promise it returns. *)
Definition commit (i : Instance) : Instance :=
  let next : list Js.Value := [] in
  match deps i with
  | Some prev =>
      if areHookInputsEqual next prev then i
      else run fetchUser (with_deps (Some next) i)
  | None => run fetchUser (with_deps (Some next) i)
  end.

Definition faulted (i : Instance) : bool :=
  match screen i with
  | Some (Throw _) => true
  | _ => false
  end.

(** One render of the mounted component: call the function and let React
    go over the element it returns. When both succeed, the output and the
    effect are committed. When the function throws, or React refuses a
    child, nothing is committed and the fault is the outcome. A faulted
    component is gone and renders no more. *)
Definition render_pass (i : Instance) : Instance :=
  if faulted i then i
  else
    match output (user (hooks i)) (isLoading (hooks i)) with
    | Ok n => commit (with_screen (Some (Ok n)) i)
    | Throw e => with_screen (Some (Throw e)) i
    end.

(** React's limit on renders scheduled from within renders' own effects. *)
Definition NESTED_UPDATE_LIMIT : nat := 50.

(** Setter calls made in one turn of the event loop are batched: when the
    turn ends, one render follows if a cell changed. (Without batching a
    render would also run between [setUser] and [setIsLoading(false)]; it
    sees [isLoading] still true and shows the loading notice, and the
    render after the second setter is the one described here.) *)
Fixpoint flush (fuel : nat) (i : Instance) : Instance :=
  match fuel with
  | O => i
  | S fuel' =>
      if dirty i
      then flush fuel' (render_pass (with_hooks (hooks i) false i))
      else i
  end.

(** The first suspended task of each kind, and the tasks left. *)
Fixpoint takeFetch (ts : list Task) : option ((Response -> Async) * list Task) :=
  match ts with
  | [] => None
  | AwaitingFetch k :: rest => Some (k, rest)
  | t :: rest => '(k, rest') ← takeFetch rest; Some (k, t :: rest')
  end.

Fixpoint takeJson (ts : list Task)
  : option (Response * (Js.Value -> Async) * list Task) :=
  match ts with
  | [] => None
  | AwaitingJson r k :: rest => Some (r, k, rest)
  | t :: rest => '(r, k, rest') ← takeJson rest; Some (r, k, t :: rest')
  end.

(** Resuming a suspended call with the outcome of the promise it awaits. A
    fulfilled promise continues the body with the value. A rejected promise
    makes the [await] throw; with no handler in the body the call's own
    promise is rejected with the same reason, and since the effect attached
    nothing to that promise the rejection reaches the host unhandled. *)
Definition resume {A} (k : A -> Async) (o : Settled A) (i : Instance) : Instance :=
  match o with
  | Fulfilled a => run (k a) i
  | Rejected e => with_unhandled e i
  end.

(** What can happen to a mounted component: it is rendered again (by its
    parent, or for any other reason), the request settles, or the parsing of
    a received body settles. *)
Inductive Event : Type :=
| Rerender
| FetchSettles (o : Settled Response)
| BodyParsed.

Definition handle (e : Event) (i : Instance) : Instance :=
  match e with
  | Rerender => render_pass i
  | FetchSettles o =>
      match takeFetch (tasks i) with
      | Some (k, rest) => resume k o (with_tasks rest i)
      | None => i
      end
  | BodyParsed =>
      match takeJson (tasks i) with
      | Some (r, k, rest) => resume k (json r) (with_tasks rest i)
      | None => i
      end
  end.

Definition step (i : Instance) (e : Event) : Instance :=
  flush NESTED_UPDATE_LIMIT (handle e i).

Definition mount : Instance := flush NESTED_UPDATE_LIMIT (render_pass initial).

Definition exec (i : Instance) (es : list Event) : Instance :=
  fold_left step es i.

(** ** What is on screen *)

Definition loadingView : ReactNode := Element "div" [text "Loading..."].

Definition emptyView : ReactNode := Element "div" [text "No user found"].

(** The Loaded output, with the four expression children left open. *)
Definition loadedView (id firstName lastName : Js.Value) (line : ReactNode) : ReactNode :=
  Element "div"
    [ Element "h1" [text "User Info"];
      Element "p" [text "ID: "; Child id];
      Element "p" [text "Name: "; Child firstName];
      Element "p" [text "Name: "; Child lastName];
      line ].



(** The text React puts in the document for a tree whose expression
    children are strings, booleans, [null] or [undefined]: a string is
    shown as it is, the other three show nothing. Numbers, arrays and
    objects as children are outside this function ([None]). *)
Fixpoint textContent (n : ReactNode) : option string :=
  match n with
  | Child (Str s) => Some s
  | Child (Undefined | Null | Bool _) => Some ""
  | Child (Num _ | Arr _ | Obj _) => None
  | Element _ children =>
      foldr (fun c acc => s ← textContent c; t ← acc; Some (s ++ t))
            (Some "") children
  end.

(** The text of each child of the root element, top to bottom. *)
Definition lines (n : ReactNode) : list (option string) :=
  match n with
  | Element _ children => textContent <$> children
  | Child _ => []
  end.

(** ** Executions *)

(** Any number of re-renders. *)
Definition rerenders (n : nat) : list Event := replicate n Rerender.

(** The request is answered with [response] and the parsing of its body
    settles, with re-renders before, between and after. *)
Definition answered (response : Response) (a b c : nat) : list Event :=
  rerenders a ++ FetchSettles (Fulfilled response) :: rerenders b
              ++ BodyParsed :: rerenders c.

(** The request is rejected with [reason], with re-renders around. *)
Definition refused (reason : Js.Value) (a b : nat) : list Event :=
  rerenders a ++ FetchSettles (Rejected reason) :: rerenders b.

(** The request resolves with the payload [p]. *)
Definition resolved (p : Js.Value) : Response := {| json := Fulfilled p |}.

(** The request is answered but the body fails to parse, with [reason]. *)
Definition unparsable (reason : Js.Value) : Response := {| json := Rejected reason |}.

(** ** Example payloads *)


Definition scenarioC : Js.Value :=
  Obj {[ "id" := Str "2"; "firstName" := Str "Grace"; "lastName" := Str "Hopper";
         "address" := Obj {[ "street" := Str "1 Navy Yard"; "city" := Str "DC";
                             "state" := Str "DC"; "zip" := Str "20001" ]} ]}.

(** A user with no [address] at all. *)
Definition noAddress : Js.Value :=
  Obj {[ "id" := Str "1"; "firstName" := Str "A"; "lastName" := Str "B" ]}.

(** A user whose [address] has no field. *)
Definition bareAddress : Js.Value :=
  Obj {[ "id" := Str "7"; "firstName" := Str "Alan"; "lastName" := Str "Turing";
         "address" := Obj ∅ ]}.

(** A user whose [address] is [null]. *)
Definition nullAddress : Js.Value :=
  Obj {[ "id" := Str "3"; "firstName" := Str "Edsger"; "lastName" := Str "Dijkstra";
         "address" := Null ]}.

(** A user whose [id] is an object. *)
Definition objectId : Js.Value :=
  Obj {[ "id" := Obj {[ "a" := Bool true ]}; "firstName" := Str "A";
         "lastName" := Str "B"; "address" := Obj ∅ ]}.

(** The falsy payloads that are neither [null] nor [undefined], one of
    each kind: zero, the empty string, [false], NaN. *)
Definition falsyPayloads : list Js.Value :=
  [Num (S754_zero false); Str ""; Bool false; Num S754_nan].

(** ** The phases of a mounted component

    The instances reachable from [mount] are of four shapes, one per
    phase of the fetch; [next] says how the events move between them. That
    the component follows [next] is proved below ([step_phase]). *)

Inductive Phase : Type :=
| Requesting
| Parsing (response : Response)
| Failed (reason : Js.Value)
| Completed (payload : Js.Value).

Definition afterJson : Js.Value -> Async :=
  fun data => SetUser data (SetIsLoading false Return).

Definition afterFetch : Response -> Async :=
  fun response => AwaitJson response afterJson.

Definition pending (t : list Task) (u : list Js.Value) : Instance :=
  {| hooks := {| user := Null; isLoading := true |}; dirty := false;
     deps := Some []; screen := Some (Ok loadingView);
     tasks := t; requests := ["/api/user"]; unhandled := u |}.

Definition instanceAt (ph : Phase) : Instance :=
  match ph with
  | Requesting => pending [AwaitingFetch afterFetch] []
  | Parsing r => pending [AwaitingJson r afterJson] []
  | Failed e => pending [] [e]
  | Completed p =>
      {| hooks := {| user := p; isLoading := false |}; dirty := false;
         deps := Some []; screen := Some (output p false);
         tasks := []; requests := ["/api/user"]; unhandled := [] |}
  end.

Definition next (ph : Phase) (e : Event) : Phase :=
  match ph, e with
  | Requesting, FetchSettles (Fulfilled r) => Parsing r
  | Requesting, FetchSettles (Rejected x) => Failed x
  | Parsing r, BodyParsed =>
      match json r with
      | Fulfilled p => Completed p
      | Rejected x => Failed x
      end
  | _, _ => ph
  end.

(** * The functions of README.md

    The README shows null-safety idioms on small functions. They read the
    properties [x] and [processed_at]; like the names the component reads,
    these are own properties of no string or array and are defined on no
    built-in prototype, so [Get] applies to them as it stands. *)

(** A call of [console.log] or of [console.error], with its arguments. *)
Inductive ConsoleEntry : Type :=
| console_log (args : list Js.Value)
| console_error (args : list Js.Value).

(** [v?.key]: [undefined] when [v] is [undefined] or [null], else [v.key]. *)
Definition OptionalGet (v : Js.Value) (key : string) : Result Js.Value :=
  if nullish v then Ok Undefined else Get v key.

(** [a ?? b], for a right operand that is a literal. *)
Definition Coalesce (a b : Js.Value) : Js.Value :=
  if nullish a then b else a.

(** [await p] inside an async function: the value, or the reason thrown. *)
Definition await (p : Settled Js.Value) : Result Js.Value :=
  match p with
  | Fulfilled v => Ok v
  | Rejected reason => Throw reason
  end.

(** The promise of an async function whose body completes with [r]. *)
Definition async (r : Result Js.Value) : Settled Js.Value :=
  match r with
  | Ok v => Fulfilled v
  | Throw e => Rejected e
  end.

(** The strings of the model hold text as UTF-8 bytes, as the string
    literals of this file do: a code point is a leading byte followed by
    its continuation bytes (of the form 10xxxxxx). *)
Definition isContinuationByte (c : Ascii.ascii) : bool :=
  match c with
  | Ascii.Ascii _ _ _ _ _ _ b6 b7 => b7 && negb b6
  end.

Fixpoint continuation (s : string) : string :=
  match s with
  | String c rest =>
      if isContinuationByte c then String c (continuation rest) else EmptyString
  | EmptyString => EmptyString
  end.

(** The first code point of a string, as a string; none in the empty
    string. *)
Definition firstCodePoint (s : string) : option string :=
  match s with
  | String c rest => Some (String c (continuation rest))
  | EmptyString => None
  end.

(** [const [first] = v]: the first value of the iteration of [v], or
    [undefined] when there is none. Arrays iterate over their items and
    strings over their code points; no other value of the model is
    iterable. *)
Definition destructureFirst (v : Js.Value) : Result Js.Value :=
  match v with
  | Arr items => Ok (default Undefined (head items))
  | Str s => Ok (default Undefined (Str <$> firstCodePoint s))
  | Undefined | Null | Bool _ | Num _ | Obj _ => Throw TypeError
  end.

(** "Without Proper Handling": the guard [response && response.x]. *)
Module WithoutProperHandling.

Definition processData (response : Js.Value) (console : list ConsoleEntry)
  : Result (list ConsoleEntry) :=
  guard ← (if ToBoolean response then Get response "x" else Ok response);
  if ToBoolean guard
  then x ← Get response "x"; Ok (console ++ [console_log [x]])%list
  else Ok (console ++ [console_log [Str "Property x is missing"]])%list.

End WithoutProperHandling.

(** "Using Optional Chaining and Nullish Coalescing". *)
Module OptionalChaining.

Definition processData (response : Js.Value) (console : list ConsoleEntry)
  : Result (list ConsoleEntry) :=
  x ← (x' ← OptionalGet response "x"; Ok (Coalesce x' (Str "default value")));
  Ok (console ++ [console_log [x]])%list.

End OptionalChaining.

(** "Using TypeScript for Type Safety": the annotation is erased, the
    body is the bare read. *)
Module TypeSafety.

Definition processData (response : Js.Value) (console : list ConsoleEntry)
  : Result (list ConsoleEntry) :=
  x ← Get response "x";
  Ok (console ++ [console_log [x]])%list.

End TypeSafety.

(** "Step 1: Create a Wrapper Function". [queried] is how
    [bigquery.runQuery(query)] settles. *)
Module WrapperStep1.

Definition runQueryWithDefaults (queried : Settled Js.Value) : Settled Js.Value :=
  async (rows ← await queried;
         response ← destructureFirst rows;
         processed_at ← OptionalGet response "processed_at";
         Ok (Obj {[ "processed_at" := Coalesce processed_at Null ]})).

End WrapperStep1.

(** "Full Example": the wrapper inside [try]/[catch], and [main]. [queried]
    is how [bigquery.query(query)] settles. *)
Module FullExample.

Definition runQueryWithDefaults (queried : Settled Js.Value) (console : list ConsoleEntry)
  : Settled Js.Value * list ConsoleEntry :=
  match (rows ← await queried;
         response ← destructureFirst rows;
         processed_at ← OptionalGet response "processed_at";
         Ok (Obj {[ "processed_at" := Coalesce processed_at Null ]})) with
  | Ok result => (async (Ok result), console)
  | Throw error =>
      (async (Ok (Obj {[ "processed_at" := Null ]})),
       (console ++ [console_error [Str "Query failed:"; error]])%list)
  end.

Definition main (queried : Settled Js.Value) (console : list ConsoleEntry)
  : Settled Js.Value * list ConsoleEntry :=
  let '(called, console') := runQueryWithDefaults queried console in
  match (result ← await called; Get result "processed_at") with
  | Ok processed_at =>
      (async (Ok Undefined), (console' ++ [console_log [processed_at]])%list)
  | Throw e => (async (Throw e), console')
  end.

End FullExample.

(** * Properties *)

(** ** The component follows its phases *)

Lemma flush_clean (n : nat) (i : Instance) :
  dirty i = false -> flush n i = i.
Proof. destruct n as [|n]; simpl; [reflexivity|]. intros ->. reflexivity. Qed.

Lemma mount_phase : mount = instanceAt Requesting.
Proof. reflexivity. Qed.

Lemma render_pass_settled (p : Js.Value) :
  render_pass (instanceAt (Completed p)) = instanceAt (Completed p).
Proof.
  unfold render_pass, faulted, instanceAt; cbn [screen hooks user isLoading].
  destruct (output p false) as [n|e] eqn:E; reflexivity.
Qed.

Lemma flush_dirty (n : nat) (i : Instance) :
  dirty i = true ->
  flush (S n) i = flush n (render_pass (with_hooks (hooks i) false i)).
Proof. simpl. intros ->. reflexivity. Qed.

Lemma run_afterJson (p : Js.Value) (i : Instance) :
  run (afterJson p) i =
  with_hooks {| user := p; isLoading := false |}
    (dirty i || negb (Object_is (user (hooks i)) p)
             || negb (Bool.eqb (isLoading (hooks i)) false)) i.
Proof. reflexivity. Qed.

Lemma render_pass_loaded (p : Js.Value) :
  render_pass (with_hooks {| user := p; isLoading := false |} false (pending [] []))
  = instanceAt (Completed p).
Proof.
  unfold render_pass, faulted, instanceAt; cbn [screen hooks user isLoading with_hooks pending].
  destruct (output p false) as [n|e] eqn:E; reflexivity.
Qed.

Lemma step_phase (ph : Phase) (e : Event) :
  step (instanceAt ph) e = instanceAt (next ph e).
Proof.
  destruct ph as [|[[p|x]]|x|p]; destruct e as [|[r|y]|]; try reflexivity.
  - (* the body parsed to [p]: both setters run, one render follows *)
    unfold step, NESTED_UPDATE_LIMIT.
    cbn [handle instanceAt tasks pending takeJson json resume next].
    rewrite run_afterJson.
    rewrite flush_dirty by (cbn; apply orb_true_r).
    change (render_pass _) with
      (render_pass (with_hooks {| user := p; isLoading := false |} false (pending [] []))).
    rewrite render_pass_loaded. apply flush_clean. reflexivity.
  - unfold step. rewrite flush_clean by (cbn [handle]; rewrite render_pass_settled; reflexivity).
    apply render_pass_settled.
Qed.

Lemma exec_cons (i : Instance) (e : Event) (es : list Event) :
  exec i (e :: es) = exec (step i e) es.
Proof. reflexivity. Qed.

Lemma exec_phase (es : list Event) (ph : Phase) :
  exec (instanceAt ph) es = instanceAt (fold_left next es ph).
Proof.
  revert ph. induction es as [|e es IH]; intros ph; [reflexivity|].
  rewrite exec_cons, step_phase.
  change (fold_left next (e :: es) ph) with (fold_left next es (next ph e)).
  apply IH.
Qed.

Lemma exec_app (i : Instance) (es fs : list Event) :
  exec i (es ++ fs) = exec (exec i es) fs.
Proof. apply fold_left_app. Qed.

Lemma next_rerenders (n : nat) (ph : Phase) :
  fold_left next (rerenders n) ph = ph.
Proof. induction n as [|n IH]; [reflexivity|]. destruct ph; exact IH. Qed.

(** Where an execution from [mount] ends. *)
Lemma exec_mount (es : list Event) :
  exec mount es = instanceAt (fold_left next es Requesting).
Proof. rewrite mount_phase. apply exec_phase. Qed.

Lemma phase_answered (r : Response) (a b c : nat) :
  fold_left next (answered r a b c) Requesting = next (Parsing r) BodyParsed.
Proof.
  unfold answered.
  rewrite fold_left_app, next_rerenders. cbn [fold_left next].
  rewrite fold_left_app, next_rerenders. cbn [fold_left].
  apply next_rerenders.
Qed.

Lemma phase_refused (x : Js.Value) (a b : nat) :
  fold_left next (refused x a b) Requesting = Failed x.
Proof.
  unfold refused.
  rewrite fold_left_app, next_rerenders. cbn [fold_left next].
  apply next_rerenders.
Qed.

Lemma phase_failed (x : Js.Value) (es : list Event) :
  fold_left next es (Failed x) = Failed x.
Proof. induction es as [|[|o|] es IH]; [reflexivity|exact IH..]. Qed.

(** The screen once the request resolved with [p]. *)
Lemma screen_resolved (p : Js.Value) (a b c : nat) :
  screen (exec mount (answered (resolved p) a b c)) = Some (output p false).
Proof. rewrite exec_mount, phase_answered. reflexivity. Qed.

Lemma hooks_resolved (p : Js.Value) (a b c : nat) :
  hooks (exec mount (answered (resolved p) a b c))
  = {| user := p; isLoading := false |}.
Proof. rewrite exec_mount, phase_answered. reflexivity. Qed.


(** ** The Loaded output *)

(** Reading a property of a truthy value never throws. *)
Lemma Get_truthy (v : Js.Value) (key : string) :
  ToBoolean v = true -> exists x, Get v key = Ok x.
Proof. destruct v; simpl; try discriminate; eauto. Qed.

Lemma Get_not_nullish (v : Js.Value) (key : string) :
  nullish v = false -> exists x, Get v key = Ok x.
Proof. destruct v; simpl; try discriminate; eauto. Qed.

Lemma Get_nullish (v : Js.Value) (key : string) :
  nullish v = true -> Get v key = Throw TypeError.
Proof. destruct v; simpl; try discriminate; reflexivity. Qed.

(** The output for a truthy user whose [address.street] can be read. *)
Lemma render_loaded (u addr street : Js.Value) :
  ToBoolean u = true ->
  Get u "address" = Ok addr ->
  Get addr "street" = Ok street ->
  exists id firstName lastName,
    Get u "id" = Ok id /\ Get u "firstName" = Ok firstName /\
    Get u "lastName" = Ok lastName /\
    render u false =
      Ok (loadedView id firstName lastName
            (if ToBoolean street then streetLine street else Child street)).
Proof.
  intros Hu Ha Hs.
  destruct (Get_truthy u "id" Hu) as [id Hid].
  destruct (Get_truthy u "firstName" Hu) as [fn Hfn].
  destruct (Get_truthy u "lastName" Hu) as [ln Hln].
  exists id, fn, ln. repeat split; try assumption.
  unfold render. rewrite Hu, Hid, Hfn, Hln, Ha. cbn [negb mbind Result_bind].
  rewrite Hs. cbn [mbind Result_bind].
  destruct (ToBoolean street); reflexivity.
Qed.

(** The output for a truthy user whose [address] is [null] or missing. *)
Lemma render_no_address (u addr : Js.Value) :
  ToBoolean u = true ->
  Get u "address" = Ok addr ->
  nullish addr = true ->
  render u false = Throw TypeError.
Proof.
  intros Hu Ha Hn.
  destruct (Get_truthy u "id" Hu) as [id Hid].
  destruct (Get_truthy u "firstName" Hu) as [fn Hfn].
  destruct (Get_truthy u "lastName" Hu) as [ln Hln].
  unfold render. rewrite Hu, Hid, Hfn, Hln, Ha. cbn [negb mbind Result_bind].
  rewrite (Get_nullish addr "street" Hn). reflexivity.
Qed.

Lemma render_falsy (u : Js.Value) :
  ToBoolean u = false -> render u false = Ok emptyView.
Proof. intros Hu. unfold render. rewrite Hu. reflexivity. Qed.

Lemma output_falsy (u : Js.Value) :
  ToBoolean u = false -> output u false = Ok emptyView.
Proof. intros Hu. unfold output. rewrite (render_falsy u Hu). reflexivity. Qed.

(** React accepts the Loaded output exactly when it accepts the four
    values shown in it. *)
Lemma mountable_loadedView (id firstName lastName street : Js.Value) :
  mountable (loadedView id firstName lastName
               (if ToBoolean street then streetLine street else Child street))
  = validChild id && validChild firstName && validChild lastName && validChild street.
Proof.
  destruct (ToBoolean street); cbn;
    destruct (validChild id), (validChild firstName), (validChild lastName),
      (validChild street); reflexivity.
Qed.

Lemma append_empty_r (s : string) : (s ++ "")%string = s.
Proof.
  induction s as [|ch s IH]; [reflexivity|].
  change (String ch (s ++ "") = String ch s). rewrite IH. reflexivity.
Qed.

Lemma textContent_streetLine (s : string) :
  textContent (streetLine (Str s)) = Some ("Address: " ++ s).
Proof. cbn. rewrite append_empty_r. reflexivity. Qed.



(** * The claims *)



(** C2. When the request resolves with [null] or [undefined], the
    component ends in the Empty state: both setters have run and the
    screen shows the "No user found" notice. *)
Theorem C2_nullish_payload_renders_empty (p : Js.Value) (a b c : nat) :
  p = Null \/ p = Undefined ->
  hooks (exec mount (answered (resolved p) a b c))
    = {| user := p; isLoading := false |} /\
  screen (exec mount (answered (resolved p) a b c)) = Some (Ok emptyView).
Proof.
  intros Hp. split; [apply hooks_resolved|].
  rewrite screen_resolved. f_equal. apply output_falsy.
  destruct Hp as [-> | ->]; reflexivity.
Qed.

Lemma C2_witness :
  hooks (exec mount (answered (resolved Null) 2 1 3))
    = {| user := Null; isLoading := false |} /\
  screen (exec mount (answered (resolved Null) 2 1 3)) = Some (Ok emptyView).
Proof.
  exact (C2_nullish_payload_renders_empty Null 2 1 3 (or_introl eq_refl)).
Defined.

(** C3, as stated, fails, in two ways. A truthy payload whose [address]
    is [null] ends with a render that throws at the read of [street]. A
    truthy payload with an address and an object for [id] ends with
    React's fault of an object child. In both nothing is shown. *)
Lemma C3_truthy_payload_can_fault :
  (ToBoolean nullAddress = true /\
   screen (exec mount (answered (resolved nullAddress) 0 0 0))
     = Some (Throw TypeError)) /\
  (ToBoolean objectId = true /\
   Get objectId "address" = Ok (Obj ∅) /\
   screen (exec mount (answered (resolved objectId) 0 0 0))
     = Some (Throw ChildError)).
Proof. repeat split; reflexivity. Qed.

(** C3, amended. When the request resolves with a truthy payload whose
    [address.street] can be read (so [address] is neither [null] nor
    [undefined]) and whose [id], [firstName], [lastName] and street are
    values React accepts as children (no plain object), the component
    ends in the Loaded state and its screen carries [p.id], [p.firstName]
    and [p.lastName] as they are read from the payload ([undefined] when
    absent), with no condition on them. *)
Theorem C3_truthy_payload_renders_fields
  (p address id firstName lastName street : Js.Value) (a b c : nat) :
  ToBoolean p = true ->
  Get p "address" = Ok address ->
  Get address "street" = Ok street ->
  Get p "id" = Ok id ->
  Get p "firstName" = Ok firstName ->
  Get p "lastName" = Ok lastName ->
  validChild id = true ->
  validChild firstName = true ->
  validChild lastName = true ->
  validChild street = true ->
  hooks (exec mount (answered (resolved p) a b c))
    = {| user := p; isLoading := false |} /\
  screen (exec mount (answered (resolved p) a b c))
    = Some (Ok (loadedView id firstName lastName
                  (if ToBoolean street then streetLine street else Child street))).
Proof.
  intros Hp Ha Hs Hid Hfn Hln Vid Vfn Vln Vs.
  destruct (render_loaded p address street Hp Ha Hs)
    as (id' & fn' & ln' & Hid' & Hfn' & Hln' & Hr).
  assert (id' = id) as -> by congruence.
  assert (fn' = firstName) as -> by congruence.
  assert (ln' = lastName) as -> by congruence.
  split; [apply hooks_resolved|].
  rewrite screen_resolved. unfold output, reconcile. rewrite Hr.
  cbn [mbind Result_bind].
  rewrite mountable_loadedView, Vid, Vfn, Vln, Vs. reflexivity.
Qed.

Lemma C3_witness :
  hooks (exec mount (answered (resolved bareAddress) 1 0 2))
    = {| user := bareAddress; isLoading := false |} /\
  screen (exec mount (answered (resolved bareAddress) 1 0 2))
    = Some (Ok (loadedView (Str "7") (Str "Alan") (Str "Turing") (Child Undefined))).
Proof.
  exact (C3_truthy_payload_renders_fields bareAddress (Obj ∅)
           (Str "7") (Str "Alan") (Str "Turing") Undefined 1 0 2
           eq_refl eq_refl eq_refl eq_refl eq_refl eq_refl
           eq_refl eq_refl eq_refl eq_refl).
Defined.



(** C5. The component starts in the Loading state ([user] null,
    [isLoading] true) and its first render, made before the effect has
    run, shows the loading notice alone: one element whose only child is
    the text "Loading...". Mounting and any number of further renders
    before the request settles leave that state and that screen. *)
Theorem C5_initial_render_is_loading (n : nat) :
  hooks initial = {| user := Null; isLoading := true |} /\
  render (user (hooks initial)) (isLoading (hooks initial)) = Ok loadingView /\
  screen (render_pass initial)
    = Some (Ok (Element "div" [Child (Str "Loading...")])) /\
  hooks (exec mount (rerenders n)) = {| user := Null; isLoading := true |} /\
  screen (exec mount (rerenders n))
    = Some (Ok (Element "div" [Child (Str "Loading...")])) /\
  lines loadingView = [Some "Loading..."].
Proof.
  rewrite exec_mount, next_rerenders. repeat split; reflexivity.
Qed.

(** C6. Whatever happens to a mounted component (re-renders and
    settlements, in any number and any order), the network has been asked
    exactly once, for [/api/user]: the request of the mount. *)
Theorem C6_one_request_per_mount (es : list Event) :
  requests initial = [] /\
  requests (exec mount es) = ["/api/user"].
Proof.
  split; [reflexivity|].
  rewrite exec_mount. destruct (fold_left next es Requesting); reflexivity.
Qed.

(** C7. A rejected request, and a body that fails to parse, are caught
    nowhere in the component: the reason reaches the host as an unhandled
    rejection, as the only one. *)
Theorem C7_failure_is_unhandled (reason : Js.Value) (a b c : nat) :
  unhandled (exec mount (refused reason a b)) = [reason] /\
  unhandled (exec mount (answered (unparsable reason) a b c)) = [reason].
Proof.
  split.
  - rewrite exec_mount, phase_refused. reflexivity.
  - rewrite exec_mount, phase_answered. reflexivity.
Qed.

(** C8. A truthy payload with no [address] makes the Loaded render throw a
    TypeError at [user.address.street], and so does every truthy user whose
    [address] reads as [undefined] or [null]: the guard covers the fields
    of an address, not the address. *)
Theorem C8_missing_address_faults :
  ToBoolean noAddress = true /\
  Get noAddress "address" = Ok Undefined /\
  render noAddress false = Throw TypeError /\
  (forall a b c : nat,
     screen (exec mount (answered (resolved noAddress) a b c))
       = Some (Throw TypeError)) /\
  (forall u address : Js.Value,
     ToBoolean u = true -> Get u "address" = Ok address ->
     nullish address = true -> render u false = Throw TypeError).
Proof.
  repeat split.
  - intros a b c. rewrite screen_resolved. reflexivity.
  - apply render_no_address.
Qed.

Lemma C8_witness : render (Str "Ada") false = Throw TypeError.
Proof.
  destruct C8_missing_address_faults as (_ & _ & _ & _ & H).
  exact (H (Str "Ada") Undefined eq_refl eq_refl eq_refl).
Defined.

(** C9. After a rejected request, or a body that fails to parse, the state
    is the initial one ([isLoading] true, [user] null) and stays so
    whatever follows: the screen keeps showing the loading notice. *)
Theorem C9_failure_leaves_loading (reason : Js.Value) (a b c : nat) (es : list Event) :
  let rejected := exec (exec mount (refused reason a b)) es in
  let garbled := exec (exec mount (answered (unparsable reason) a b c)) es in
  (hooks rejected = {| user := Null; isLoading := true |} /\
   screen rejected = Some (Ok loadingView)) /\
  (hooks garbled = {| user := Null; isLoading := true |} /\
   screen garbled = Some (Ok loadingView)).
Proof.
  cbv zeta. rewrite <- !exec_app, !exec_mount, !fold_left_app.
  rewrite phase_refused, phase_answered. cbn [next unparsable json].
  rewrite phase_failed. repeat split; reflexivity.
Qed.

(** C10. When the request resolves with a falsy payload, the component
    ends in the Empty state and shows "No user found"; the falsy payloads
    include values that are neither [null] nor [undefined] (0, "",
    [false], NaN), so the test is wider than a null check. *)
Theorem C10_falsy_payload_renders_empty :
  (forall (p : Js.Value) (a b c : nat),
     ToBoolean p = false ->
     hooks (exec mount (answered (resolved p) a b c))
       = {| user := p; isLoading := false |} /\
     screen (exec mount (answered (resolved p) a b c)) = Some (Ok emptyView)) /\
  Forall (fun p => ToBoolean p = false /\ nullish p = false) falsyPayloads.
Proof.
  split.
  - intros p a b c Hp. split; [apply hooks_resolved|].
    rewrite screen_resolved, (output_falsy p Hp). reflexivity.
  - repeat constructor.
Qed.

Lemma C10_witness :
  screen (exec mount (answered (resolved (Num (S754_zero true))) 1 1 1))
    = Some (Ok emptyView).
Proof.
  destruct C10_falsy_payload_renders_empty as [H _].
  exact (proj2 (H (Num (S754_zero true)) 1 1 1 eq_refl)).
Defined.

(** * Further properties of the component *)

(** X1. The only fault of the component function: it throws exactly in the
    Loaded branch ([isLoading] false, truthy [user]) when [user.address]
    reads as [undefined] or [null], and what it throws is the TypeError of
    the read of [street]. *)
Theorem X1_render_throws_iff (u : Js.Value) (l : bool) (e : Js.Value) :
  render u l = Throw e <->
  l = false /\ ToBoolean u = true /\ e = TypeError /\
  exists a, Get u "address" = Ok a /\ nullish a = true.
Proof.
  split.
  - intros Hr. destruct l; [discriminate Hr|].
    destruct (ToBoolean u) eqn:Hu; [|rewrite (render_falsy u Hu) in Hr; discriminate Hr].
    destruct (Get_truthy u "address" Hu) as [a Ha].
    destruct (nullish a) eqn:Hn.
    + rewrite (render_no_address u a Hu Ha Hn) in Hr.
      injection Hr as <-. repeat split. exists a. split; assumption.
    + destruct (Get_not_nullish a "street" Hn) as [s Hs].
      destruct (render_loaded u a s Hu Ha Hs) as (? & ? & ? & _ & _ & _ & Hok).
      rewrite Hok in Hr. discriminate Hr.
  - intros (-> & Hu & -> & a & Ha & Hn). exact (render_no_address u a Hu Ha Hn).
Qed.

Lemma X1_witness : render (Bool true) false = Throw TypeError.
Proof.
  apply (proj2 (X1_render_throws_iff (Bool true) false TypeError)).
  repeat split. exists Undefined. split; reflexivity.
Defined.

(** X2. Of the address, only [street] reaches the output: two users that
    differ in their address objects alone, and whose addresses agree on
    [street], render alike ([city], [state] and [zip] are never read). *)
Theorem X2_render_reads_only_street
  (m address address' : gmap string Js.Value) (l : bool) :
  address !! "street" = address' !! "street" ->
  render (Obj (<["address" := Obj address]> m)) l
  = render (Obj (<["address" := Obj address']> m)) l.
Proof.
  intros Hs. unfold render, Get.
  rewrite !lookup_insert_eq, !lookup_insert_ne by discriminate.
  cbn [default from_option id mbind Result_bind]. rewrite Hs. reflexivity.
Qed.

Lemma X2_witness :
  render (Obj (<["address" := Obj {[ "street" := Str "1 Navy Yard"; "city" := Str "DC" ]}]>
                 {[ "id" := Str "2" ]})) false
  = render (Obj (<["address" := Obj {[ "street" := Str "1 Navy Yard" ]}]>
                   {[ "id" := Str "2" ]})) false.
Proof.
  exact (X2_render_reads_only_street {[ "id" := Str "2" ]}
           {[ "street" := Str "1 Navy Yard"; "city" := Str "DC" ]}
           {[ "street" := Str "1 Navy Yard" ]} false eq_refl).
Defined.

(** X3. Of the user, only [id], [firstName], [lastName] and [address] are
    read: two objects that agree on these four properties render alike,
    whatever else they carry. *)
Theorem X3_render_reads_four_properties (m m' : gmap string Js.Value) (l : bool) :
  Forall (fun key => m !! key = m' !! key) ["id"; "firstName"; "lastName"; "address"] ->
  render (Obj m) l = render (Obj m') l.
Proof.
  intros H.
  apply Forall_cons in H as [Hid H]. apply Forall_cons in H as [Hfn H].
  apply Forall_cons in H as [Hln H]. apply Forall_cons in H as [Ha _].
  unfold render, Get. rewrite Hid, Hfn, Hln, Ha. reflexivity.
Qed.

Lemma X3_witness :
  render (Obj (<["email" := Str "ada@example.org"]> {[ "id" := Str "1" ]})) false
  = render (Obj {[ "id" := Str "1" ]}) false.
Proof.
  apply X3_render_reads_four_properties. repeat constructor.
Defined.

(** X4. A falsy [address.street] is itself the last child of the Loaded
    output: [user.address.street && ...] evaluates to the street, so a
    street that is the number 0 or NaN is handed to React as a child, not
    dropped. *)
Theorem X4_falsy_street_is_last_child (u address street : Js.Value) :
  ToBoolean u = true ->
  Get u "address" = Ok address ->
  Get address "street" = Ok street ->
  ToBoolean street = false ->
  exists id firstName lastName,
    Get u "id" = Ok id /\ Get u "firstName" = Ok firstName /\
    Get u "lastName" = Ok lastName /\
    render u false = Ok (loadedView id firstName lastName (Child street)).
Proof.
  intros Hu Ha Hs Hf.
  destruct (render_loaded u address street Hu Ha Hs)
    as (id & fn & ln & Hid & Hfn & Hln & Hr).
  rewrite Hf in Hr. exists id, fn, ln. repeat split; assumption.
Qed.

Lemma X4_witness :
  exists id firstName lastName,
    Get (Obj {[ "address" := Obj {[ "street" := Num (S754_zero false) ]} ]}) "id" = Ok id /\
    Get (Obj {[ "address" := Obj {[ "street" := Num (S754_zero false) ]} ]}) "firstName"
      = Ok firstName /\
    Get (Obj {[ "address" := Obj {[ "street" := Num (S754_zero false) ]} ]}) "lastName"
      = Ok lastName /\
    render (Obj {[ "address" := Obj {[ "street" := Num (S754_zero false) ]} ]}) false
      = Ok (loadedView id firstName lastName (Child (Num (S754_zero false)))).
Proof.
  exact (X4_falsy_street_is_last_child
           (Obj {[ "address" := Obj {[ "street" := Num (S754_zero false) ]} ]})
           (Obj {[ "street" := Num (S754_zero false) ]}) (Num (S754_zero false))
           eq_refl eq_refl eq_refl eq_refl).
Defined.

(** X5. For a payload shaped as the [User] interface declares it (string
    [id], [firstName], [lastName], string [address.street]), the Loaded
    output reads, line by line: the heading, the id, the first name and
    the last name both under the label "Name: ", then the street line
    when the street is not empty. *)
Theorem X5_typed_user_lines (u address : Js.Value) (id firstName lastName street : string) :
  Get u "id" = Ok (Str id) ->
  Get u "firstName" = Ok (Str firstName) ->
  Get u "lastName" = Ok (Str lastName) ->
  Get u "address" = Ok address ->
  Get address "street" = Ok (Str street) ->
  exists n,
    render u false = Ok n /\
    lines n = [ Some "User Info"; Some ("ID: " ++ id);
                Some ("Name: " ++ firstName); Some ("Name: " ++ lastName);
                Some (if String.eqb street "" then "" else "Address: " ++ street) ].
Proof.
  intros Hid Hfn Hln Ha Hs.
  assert (Hu : ToBoolean u = true) by (destruct u; try discriminate Hid; reflexivity).
  destruct (render_loaded u address (Str street) Hu Ha Hs)
    as (id' & fn' & ln' & Hid' & Hfn' & Hln' & Hr).
  rewrite Hid in Hid'. rewrite Hfn in Hfn'. rewrite Hln in Hln'.
  injection Hid' as <-. injection Hfn' as <-. injection Hln' as <-.
  eexists; split; [exact Hr|].
  cbn [lines loadedView fmap list_fmap textContent text foldr mbind option_bind
       ToBoolean negb].
  rewrite !append_empty_r.
  destruct (String.eqb_spec street "") as [->|_]; cbn [negb]; [reflexivity|].
  rewrite textContent_streetLine. reflexivity.
Qed.

Lemma X5_witness :
  exists n,
    render scenarioC false = Ok n /\
    lines n = [ Some "User Info"; Some "ID: 2"; Some "Name: Grace";
                Some "Name: Hopper"; Some "Address: 1 Navy Yard" ].
Proof.
  exact (X5_typed_user_lines scenarioC _ "2" "Grace" "Hopper" "1 Navy Yard"
           eq_refl eq_refl eq_refl eq_refl eq_refl).
Defined.

(** X6. What is on screen is always the outcome of rendering the current
    state: after any events, the screen holds what the component function
    returns at the two state cells once React has gone over it (the
    element, the fault of the function, or React's fault of an object
    child), and no state change waits for a render. *)
Theorem X6_screen_is_render_of_state (es : list Event) :
  screen (exec mount es)
    = Some (n ← render (user (hooks (exec mount es)))
                       (isLoading (hooks (exec mount es)));
            reconcile n) /\
  dirty (exec mount es) = false.
Proof.
  rewrite exec_mount. destruct (fold_left next es Requesting); split; reflexivity.
Qed.

(** X7. Rendering a mounted component again changes nothing at all: no
    state cell, no request, no task, and the same screen. *)
Theorem X7_rerender_is_idle (es : list Event) :
  step (exec mount es) Rerender = exec mount es.
Proof.
  rewrite exec_mount, step_phase.
  destruct (fold_left next es Requesting); reflexivity.
Qed.

(** X8. The arrival of the response alone changes neither state nor
    screen: until its body is parsed the component keeps showing the
    loading notice, whatever the response holds. *)
Theorem X8_loading_while_parsing (r : Response) (a b : nat) :
  let i := exec mount (rerenders a ++ FetchSettles (Fulfilled r) :: rerenders b) in
  hooks i = {| user := Null; isLoading := true |} /\
  screen i = Some (Ok loadingView) /\
  unhandled i = [].
Proof.
  cbv zeta. rewrite exec_mount, fold_left_app, next_rerenders.
  cbn [fold_left next]. rewrite next_rerenders. repeat split; reflexivity.
Qed.

(** X9. Once the payload is stored the component is final: whatever
    happens afterwards, the state cells keep the payload, the screen keeps
    the outcome of rendering it (the element, or the fault of the function
    or of React), nothing is pending and the host was told of no
    rejection. There is no retry. *)
Theorem X9_resolved_is_final (p : Js.Value) (a b c : nat) (es : list Event) :
  let i := exec (exec mount (answered (resolved p) a b c)) es in
  hooks i = {| user := p; isLoading := false |} /\
  screen i = Some (n ← render p false; reconcile n) /\
  tasks i = [] /\
  unhandled i = [].
Proof.
  cbv zeta. rewrite <- exec_app, exec_mount, fold_left_app, phase_answered.
  cbn [next resolved json].
  assert (H : fold_left next es (Completed p) = Completed p)
    by (induction es as [|[|o|] es IH]; [reflexivity|exact IH..]).
  rewrite H. repeat split; reflexivity.
Qed.

(** X10. The component cannot tell a rejected request from a body that
    fails to parse: with the same reason, both leave the very same
    instance. *)
Theorem X10_failures_are_alike (reason : Js.Value) (a b a' b' c' : nat) :
  exec mount (refused reason a b)
  = exec mount (answered (unparsable reason) a' b' c').
Proof.
  rewrite !exec_mount, phase_refused, phase_answered. reflexivity.
Qed.

(** X11. At any time at most one call of [fetchUser] is suspended and at
    most one rejection has reached the host; and once one has, no call is
    pending and the component is left in its initial state, showing the
    loading notice. *)
Theorem X11_at_most_one_failure (es : list Event) :
  let i := exec mount es in
  length (tasks i) <= 1 /\
  length (unhandled i) <= 1 /\
  (unhandled i <> [] ->
     tasks i = [] /\
     hooks i = {| user := Null; isLoading := true |} /\
     screen i = Some (Ok loadingView)).
Proof.
  cbv zeta. rewrite exec_mount.
  destruct (fold_left next es Requesting); cbn;
    (split; [lia|split; [lia|]]); intros Hne;
    solve [contradiction | repeat split; reflexivity].
Qed.

Lemma X11_witness :
  tasks (exec mount [FetchSettles (Rejected (Str "offline")); Rerender]) = [] /\
  hooks (exec mount [FetchSettles (Rejected (Str "offline")); Rerender])
    = {| user := Null; isLoading := true |} /\
  screen (exec mount [FetchSettles (Rejected (Str "offline")); Rerender])
    = Some (Ok loadingView).
Proof.
  apply (proj2 (proj2 (X11_at_most_one_failure
                         [FetchSettles (Rejected (Str "offline")); Rerender]))).
  discriminate.
Defined.

(** * Properties of the README functions *)

Lemma OptionalGet_ok (v : Js.Value) (key : string) :
  exists x, OptionalGet v key = Ok x /\
            (nullish v = true -> x = Undefined) /\
            (nullish v = false -> Get v key = Ok x).
Proof.
  unfold OptionalGet. destruct (nullish v) eqn:Hn.
  - exists Undefined. split; [reflexivity|]. split; [reflexivity|discriminate].
  - destruct (Get_not_nullish v key Hn) as [x Hx].
    exists x. split; [exact Hx|]. split; [discriminate|]. intros _. exact Hx.
Qed.

Lemma Coalesce_defined (a b : Js.Value) :
  b <> Undefined -> Coalesce a b <> Undefined.
Proof. unfold Coalesce. destruct a; cbn; congruence. Qed.

Lemma truthy_not_nullish (v : Js.Value) : ToBoolean v = true -> nullish v = false.
Proof. destruct v; cbn; congruence. Qed.

(** X12. The guarded [processData] never throws and logs once: the value
    of [response.x] when both [response] and [response.x] are truthy, and
    the notice "Property x is missing" in every other case, a falsy but
    present [x] (0, the empty string, [false]) included. *)
Theorem X12_guarded_processData (response : Js.Value) (console : list ConsoleEntry) :
  exists v,
    WithoutProperHandling.processData response console
      = Ok (console ++ [console_log [v]])%list /\
    ((ToBoolean response = true /\ Get response "x" = Ok v /\ ToBoolean v = true) \/
     (v = Str "Property x is missing" /\
      forall x, ToBoolean response = true -> Get response "x" = Ok x ->
                ToBoolean x = false)).
Proof.
  unfold WithoutProperHandling.processData.
  destruct (ToBoolean response) eqn:Hr.
  - destruct (Get_truthy response "x" Hr) as [x Hx]. rewrite Hx.
    cbn [mbind Result_bind]. destruct (ToBoolean x) eqn:Ht.
    + exists x. split; [reflexivity|]. left. repeat split; assumption.
    + eexists. split; [reflexivity|]. right. split; [reflexivity|].
      intros y _ Hy. congruence.
  - cbn [mbind Result_bind]. rewrite Hr.
    eexists. split; [reflexivity|]. right. split; [reflexivity|].
    intros y Hy. discriminate Hy.
Qed.

(** X13. The [processData] with optional chaining never throws and logs
    once: the value of [response.x] whenever [response] and [response.x]
    are neither [undefined] nor [null], falsy values kept as they are,
    and "default value" otherwise. *)
Theorem X13_chained_processData (response : Js.Value) (console : list ConsoleEntry) :
  exists v,
    OptionalChaining.processData response console
      = Ok (console ++ [console_log [v]])%list /\
    ((nullish response = false /\ Get response "x" = Ok v /\ nullish v = false) \/
     (v = Str "default value" /\
      (nullish response = true \/
       exists x, Get response "x" = Ok x /\ nullish x = true))).
Proof.
  unfold OptionalChaining.processData.
  destruct (OptionalGet_ok response "x") as (x & Hx & Hnull & Hget). rewrite Hx.
  cbn [mbind Result_bind]. eexists. split; [reflexivity|].
  unfold Coalesce. destruct (nullish response) eqn:Hr.
  - right. rewrite (Hnull eq_refl). cbn. split; [reflexivity|]. left. reflexivity.
  - destruct (nullish x) eqn:Hn.
    + right. split; [reflexivity|]. right. exists x. split; [apply Hget; reflexivity|exact Hn].
    + left. split; [reflexivity|]. split; [apply Hget; reflexivity|exact Hn].
Qed.

(** X14. The two [processData] of the README log the same thing exactly
    when [response] and [response.x] are both truthy; on every other
    input (a missing [x], a falsy [x], a missing [response]) their output
    differs. *)
Theorem X14_processData_variants_agree_iff
  (response : Js.Value) (console : list ConsoleEntry) :
  WithoutProperHandling.processData response console
    = OptionalChaining.processData response console
  <-> ToBoolean response = true /\
      exists x, Get response "x" = Ok x /\ ToBoolean x = true.
Proof.
  unfold WithoutProperHandling.processData, OptionalChaining.processData, OptionalGet.
  destruct (ToBoolean response) eqn:Hr.
  - (* a truthy response: both read [response.x] *)
    rewrite (truthy_not_nullish _ Hr).
    destruct (Get_truthy response "x" Hr) as [x Hx]. rewrite Hx.
    cbn [mbind Result_bind]. unfold Coalesce.
    destruct (ToBoolean x) eqn:Ht.
    + rewrite (truthy_not_nullish _ Ht). split; [|reflexivity].
      intros _. split; [reflexivity|]. exists x. split; [reflexivity|exact Ht].
    + split.
      * intros Heq. exfalso. injection Heq as Heq. apply app_inv_head in Heq.
        destruct x as [| |b|n|s|items|props]; cbn in Heq, Ht; try discriminate.
        assert (s = "Property x is missing") as -> by congruence.
        discriminate Ht.
      * intros (_ & y & Hy & Hty). congruence.
  - (* a falsy response: the guard gives up, the chain reads on *)
    split; [|intros (H & _); discriminate H].
    cbn [mbind Result_bind]. rewrite Hr. intros Heq. exfalso.
    destruct response as [| |b|n|s|items|props]; try discriminate Hr;
      cbn in Heq; injection Heq as Heq; apply app_inv_head in Heq;
      discriminate Heq.
Qed.

Lemma X14_witness :
  WithoutProperHandling.processData (Obj {[ "x" := Str "value" ]}) []
  = OptionalChaining.processData (Obj {[ "x" := Str "value" ]}) [].
Proof.
  apply (proj2 (X14_processData_variants_agree_iff (Obj {[ "x" := Str "value" ]}) [])).
  split; [reflexivity|]. exists (Str "value"). split; reflexivity.
Defined.

(** X15. The typed [processData] is the bare read: it throws a TypeError
    exactly when [response] is [undefined] or [null] (the annotation does
    not exist at run time), and otherwise logs [response.x] as it is,
    [undefined] included. *)
Theorem X15_typed_processData (response : Js.Value) (console : list ConsoleEntry) :
  (nullish response = true ->
     TypeSafety.processData response console = Throw TypeError) /\
  (nullish response = false ->
     exists x, Get response "x" = Ok x /\
               TypeSafety.processData response console
                 = Ok (console ++ [console_log [x]])%list).
Proof.
  unfold TypeSafety.processData. split; intros Hn.
  - rewrite (Get_nullish response "x" Hn). reflexivity.
  - destruct (Get_not_nullish response "x" Hn) as [x Hx].
    exists x. rewrite Hx. split; reflexivity.
Qed.

Lemma X15_witness :
  TypeSafety.processData Undefined [] = Throw TypeError /\
  exists x, Get (Obj ∅) "x" = Ok x /\
            TypeSafety.processData (Obj ∅) [] = Ok ([] ++ [console_log [x]])%list.
Proof.
  split.
  - exact (proj1 (X15_typed_processData Undefined []) eq_refl).
  - exact (proj2 (X15_typed_processData (Obj ∅) []) eq_refl).
Defined.

(** What the body shared by the two wrappers returns once the rows are
    there: an object with the one property [processed_at], which is the
    [processed_at] of the first row when the row and the value are there,
    and [null] otherwise; never [undefined]. *)
Lemma wrapper_body (rows first : Js.Value) :
  destructureFirst rows = Ok first ->
  exists v,
    (response ← destructureFirst rows;
     processed_at ← OptionalGet response "processed_at";
     Ok (Obj {[ "processed_at" := Coalesce processed_at Null ]}))
    = Ok (Obj {[ "processed_at" := v ]}) /\
    v <> Undefined /\
    (nullish first = true -> v = Null) /\
    (forall x, nullish first = false -> Get first "processed_at" = Ok x ->
               v = if nullish x then Null else x).
Proof.
  intros Hf. rewrite Hf. cbn [mbind Result_bind].
  destruct (OptionalGet_ok first "processed_at") as (x & Hx & Hnull & Hget).
  rewrite Hx. cbn [mbind Result_bind]. eexists. split; [reflexivity|].
  split; [apply Coalesce_defined; discriminate|]. split.
  - intros Hn. rewrite (Hnull Hn). reflexivity.
  - intros y Hn Hy. specialize (Hget Hn). rewrite Hy in Hget.
    injection Hget as <-. reflexivity.
Qed.

(** X16. The wrapper of the full example keeps its contract on every
    input: its promise is always fulfilled, with an object whose
    [processed_at] is never [undefined]. When the query is rejected,
    [processed_at] is [null] and the one line added to the console is
    [console.error("Query failed:", reason)] with the reason of the
    rejection; when the result is not iterable, the same with the
    TypeError of the destructuring. When the result can be destructured
    the console is untouched and [processed_at] is that of the first row,
    or [null] where the row or the value is [undefined] or [null]. *)
Theorem X16_full_wrapper_contract
  (queried : Settled Js.Value) (console : list ConsoleEntry) :
  (exists v console',
     FullExample.runQueryWithDefaults queried console
       = (Fulfilled (Obj {[ "processed_at" := v ]}), console') /\
     v <> Undefined) /\
  (forall reason,
     queried = Rejected reason ->
     FullExample.runQueryWithDefaults queried console
       = (Fulfilled (Obj {[ "processed_at" := Null ]}),
          (console ++ [console_error [Str "Query failed:"; reason]])%list)) /\
  (forall rows e,
     queried = Fulfilled rows ->
     destructureFirst rows = Throw e ->
     e = TypeError /\
     FullExample.runQueryWithDefaults queried console
       = (Fulfilled (Obj {[ "processed_at" := Null ]}),
          (console ++ [console_error [Str "Query failed:"; TypeError]])%list)) /\
  (forall rows first,
     queried = Fulfilled rows ->
     destructureFirst rows = Ok first ->
     exists v,
       FullExample.runQueryWithDefaults queried console
         = (Fulfilled (Obj {[ "processed_at" := v ]}), console) /\
       v <> Undefined /\
       (nullish first = true -> v = Null) /\
       (forall x, nullish first = false -> Get first "processed_at" = Ok x ->
                  v = if nullish x then Null else x)).
Proof.
  assert (Hok : forall rows first,
             destructureFirst rows = Ok first ->
             exists v,
               FullExample.runQueryWithDefaults (Fulfilled rows) console
                 = (Fulfilled (Obj {[ "processed_at" := v ]}), console) /\
               v <> Undefined /\
               (nullish first = true -> v = Null) /\
               (forall x, nullish first = false ->
                          Get first "processed_at" = Ok x ->
                          v = if nullish x then Null else x)).
  { intros rows first Hf.
    destruct (wrapper_body rows first Hf) as (v & Hv & Hrest).
    exists v. split; [|exact Hrest].
    unfold FullExample.runQueryWithDefaults. cbn [await mbind Result_bind].
    rewrite Hv. reflexivity. }
  assert (Hthrow : forall rows e,
             destructureFirst rows = Throw e ->
             e = TypeError /\
             FullExample.runQueryWithDefaults (Fulfilled rows) console
               = (Fulfilled (Obj {[ "processed_at" := Null ]}),
                  (console ++ [console_error [Str "Query failed:"; TypeError]])%list)).
  { intros rows e Hf.
    assert (e = TypeError) as ->
      by (destruct rows; cbn in Hf; congruence).
    split; [reflexivity|].
    unfold FullExample.runQueryWithDefaults. cbn [await mbind Result_bind].
    rewrite Hf. reflexivity. }
  split; [|split; [|split]].
  - destruct queried as [rows|reason].
    + destruct (destructureFirst rows) as [first|e] eqn:Hf.
      * destruct (Hok rows first Hf) as (v & Hv & Hdef & _). eauto.
      * destruct (Hthrow rows e Hf) as (_ & Hv).
        eexists _, _. split; [exact Hv|discriminate].
    + eexists _, _. split; [reflexivity|discriminate].
  - intros reason ->. reflexivity.
  - intros rows e -> Hf. exact (Hthrow rows e Hf).
  - intros rows first -> Hf. exact (Hok rows first Hf).
Qed.

Lemma X16_witness :
  FullExample.runQueryWithDefaults (Rejected (Str "quota exceeded")) []
  = (Fulfilled (Obj {[ "processed_at" := Null ]}),
     [console_error [Str "Query failed:"; Str "quota exceeded"]]).
Proof.
  exact (proj1 (proj2 (X16_full_wrapper_contract (Rejected (Str "quota exceeded")) []))
           (Str "quota exceeded") eq_refl).
Defined.

(** X17. In both wrappers a [processed_at] of the first row that is
    neither [undefined] nor [null] comes back unchanged, falsy values (0,
    the empty string, [false]) included: the default replaces absent
    values only. *)
Theorem X17_wrappers_keep_present_values
  (row x : Js.Value) (rest : list Js.Value) (console : list ConsoleEntry) :
  nullish row = false ->
  Get row "processed_at" = Ok x ->
  nullish x = false ->
  WrapperStep1.runQueryWithDefaults (Fulfilled (Arr (row :: rest)))
    = Fulfilled (Obj {[ "processed_at" := x ]}) /\
  FullExample.runQueryWithDefaults (Fulfilled (Arr (row :: rest))) console
    = (Fulfilled (Obj {[ "processed_at" := x ]}), console).
Proof.
  intros Hn Hx Hnx.
  unfold WrapperStep1.runQueryWithDefaults, FullExample.runQueryWithDefaults.
  cbn [await mbind Result_bind destructureFirst head default from_option id].
  unfold OptionalGet, Coalesce. rewrite Hn, Hx. cbn [mbind Result_bind].
  rewrite Hnx. split; reflexivity.
Qed.

Lemma X17_witness :
  WrapperStep1.runQueryWithDefaults
    (Fulfilled (Arr [Obj {[ "processed_at" := Num (S754_zero false) ]}]))
    = Fulfilled (Obj {[ "processed_at" := Num (S754_zero false) ]}) /\
  FullExample.runQueryWithDefaults
    (Fulfilled (Arr [Obj {[ "processed_at" := Num (S754_zero false) ]}])) []
    = (Fulfilled (Obj {[ "processed_at" := Num (S754_zero false) ]}), []).
Proof.
  exact (X17_wrappers_keep_present_values
           (Obj {[ "processed_at" := Num (S754_zero false) ]}) (Num (S754_zero false))
           [] [] eq_refl eq_refl eq_refl).
Defined.

(** X18. The wrapper of step 1 has no handler: its promise is rejected
    with the reason of a rejected query, and with a TypeError when the
    result is not iterable, [undefined] first of all; for a result that
    is an array, empty or not, it is fulfilled with an object whose
    [processed_at] is never [undefined]. *)
Theorem X18_step1_wrapper :
  (forall reason,
     WrapperStep1.runQueryWithDefaults (Rejected reason) = Rejected reason) /\
  (forall rows,
     destructureFirst rows = Throw TypeError ->
     WrapperStep1.runQueryWithDefaults (Fulfilled rows) = Rejected TypeError) /\
  WrapperStep1.runQueryWithDefaults (Fulfilled Undefined) = Rejected TypeError /\
  (forall items,
     exists v,
       WrapperStep1.runQueryWithDefaults (Fulfilled (Arr items))
         = Fulfilled (Obj {[ "processed_at" := v ]}) /\
       v <> Undefined).
Proof.
  unfold WrapperStep1.runQueryWithDefaults. repeat split.
  - intros rows Hr. cbn [await mbind Result_bind]. rewrite Hr. reflexivity.
  - intros items.
    destruct (wrapper_body (Arr items) _ eq_refl) as (v & Hv & Hdef & _).
    exists v. cbn [await mbind Result_bind]. rewrite Hv. split; [reflexivity|exact Hdef].
Qed.

Lemma X18_witness :
  WrapperStep1.runQueryWithDefaults (Fulfilled (Obj ∅)) = Rejected TypeError.
Proof.
  destruct X18_step1_wrapper as (_ & H & _). exact (H (Obj ∅) eq_refl).
Defined.

(** X19. [main] of the full example never fails: whatever the query
    does, its promise is fulfilled and its last act is one [console.log]
    of a value that is not [undefined]. *)
Theorem X19_main_always_logs (queried : Settled Js.Value) (console : list ConsoleEntry) :
  exists v console',
    FullExample.main queried console
      = (Fulfilled Undefined, (console' ++ [console_log [v]])%list) /\
    v <> Undefined /\
    (console' = console \/
     exists reason,
       console' = (console ++ [console_error [Str "Query failed:"; reason]])%list).
Proof.
  unfold FullExample.main, FullExample.runQueryWithDefaults.
  destruct queried as [rows|reason]; cbn [await mbind Result_bind].
  - destruct (destructureFirst rows) as [first|e] eqn:Hf.
    + destruct (wrapper_body rows first Hf) as (v & Hv & Hdef & _).
      rewrite Hf in Hv. cbn [mbind Result_bind] in Hv |- *. rewrite Hv.
      cbn [async await mbind Result_bind Get]. rewrite lookup_singleton_eq.
      exists v, console. repeat split; [exact Hdef|left; reflexivity].
    + exists Null. eexists. cbn. repeat split; [discriminate|].
      right. exists e. reflexivity.
  - exists Null. eexists. cbn. repeat split; [discriminate|].
    right. exists reason. reflexivity.
Qed.
